(** * backend/main.py: the test endpoint of the Python backend

    A shallow embedding of the twelve lines of [backend/main.py] and of the
    framework calls they make ([Flask], [app.route], [jsonify], [app.run]),
    followed by the properties of the endpoint, of the start-up and of the
    server's lifecycle. *)

From Stdlib Require Import ZArith.
From stdpp Require Import base strings gmap list relations.

Set Warnings "-register-all".
Local Open Scope Z_scope.
Local Open Scope string_scope.

(** ** Values *)

(** The Python values of the embedding.  [PyObject] stands for any object
    with no JSON form (a set, a function, an open file, ...). *)
Inductive pyobj : Type :=
| PyNone
| PyBool (b : bool)
| PyInt (n : Z)
| PyStr (s : string)
| PyList (items : list pyobj)
| PyDict (entries : gmap string pyobj)
| PyObject (type_name : string).

(** JSON documents.  An object is a finite map, so two objects with the same
    fields are equal whatever the order the fields were written in. *)
Inductive json : Type :=
| JNull
| JBool (b : bool)
| JNum (n : Z)
| JStr (s : string)
| JArr (items : list json)
| JObj (fields : gmap string json).

Inductive exn : Type :=
| HTTPException (code : Z) (name : string)
| TypeError (msg : string)
| KeyError (key : string).

Inductive result (A : Type) : Type :=
| Ok (a : A)
| Raise (e : exn).
Arguments Ok {A} a.
Arguments Raise {A} e.

(** Modelled from the spec: the framework's JSON encoder, which is not part
    of the repository; the JSON form of a Python value, or the [TypeError]
    raised on a value that has none. *)
Fixpoint to_json (o : pyobj) : result json :=
  match o with
  | PyNone => Ok JNull
  | PyBool b => Ok (JBool b)
  | PyInt n => Ok (JNum n)
  | PyStr s => Ok (JStr s)
  | PyList items =>
      match
        (fix go (l : list pyobj) : result (list json) :=
           match l with
           | [] => Ok []
           | x :: l' =>
               match to_json x, go l' with
               | Ok j, Ok js => Ok (j :: js)
               | Raise e, _ => Raise e
               | _, Raise e => Raise e
               end
           end) items
      with
      | Ok js => Ok (JArr js)
      | Raise e => Raise e
      end
  | PyDict entries =>
      match
        map_fold (fun k v acc =>
                    match to_json v, acc with
                    | Ok j, Ok m => Ok (<[k := j]> m)
                    | Raise e, _ => Raise e
                    | _, Raise e => Raise e
                    end) (Ok (∅ : gmap string json)) entries
      with
      | Ok m => Ok (JObj m)
      | Raise e => Raise e
      end
  | PyObject t => Raise (TypeError ("Object of type " ++ t ++ " is not JSON serializable"))
  end.

(** ** HTTP messages *)

Record Request : Type := mkRequest {
  method : string;
  path : string;
  query_string : string;
  headers : list (string * string);
  data : string
}.

Inductive Body : Type :=
| JsonBody (j : json)
| HtmlBody (text : string).

Record Response : Type := mkResponse {
  status : Z;
  mimetype : string;
  body : Body
}.

(** ** The interpreter's state *)

(** The functions [main.py] defines; the framework's table of view functions
    holds references to them. *)
Inductive func : Type :=
| F_test.

Record Rule : Type := mkRule {
  rule : string;
  methods : list string;
  endpoint : string
}.

Record Flask : Type := mkFlask {
  import_name : string;
  url_map : list Rule;
  view_functions : gmap string func;
  debug : bool
}.

Inductive ServerState : Type :=
| stopped
| listening.

(** What the process is started with: [os.environ] and [sys.argv]. *)
Record Process : Type := mkProcess {
  environ : gmap string string;
  argv : list string
}.

(** Everything a statement of the program could read or change: the module
    global [app], the server's lifecycle state, the address its socket is
    bound to, and the process environment. *)
Record World : Type := mkWorld {
  app : Flask;
  server : ServerState;
  socket : option (string * Z);
  process : Process
}.

(** ** Code that runs inside a request

    A computation reads the current request (the framework's context-local
    [request]), may change the world, and returns a value or raises. *)
Definition M (A : Type) : Type := Request -> World -> result A * World.

#[export] Instance M_ret : MRet M := fun A a _ w => (Ok a, w).

#[export] Instance M_bind : MBind M := fun A B f m req w =>
  match m req w with
  | (Ok a, w') => f a req w'
  | (Raise e, w') => (Raise e, w')
  end.

Definition raise {A : Type} (e : exn) : M A := fun _ w => (Raise e, w).
Definition request : M Request := fun req w => (Ok req, w).
Definition current_app : M Flask := fun _ w => (Ok (app w), w).

(** ** The framework calls the program makes *)

Module flask.

(** Modelled from the spec: the framework's [Flask(import_name)], which is
    not part of the repository; a fresh application has no route of the
    program's and is not in debug mode. *)
Definition Flask_init (import_name : string) : Flask :=
  {| import_name := import_name; url_map := []; view_functions := ∅;
     debug := false |}.

(** Modelled from the spec: the framework's [app.route(rule, methods)]
    decorator applied to a function named [name]; a route is a (method,
    path) pair mapped to a handler (glossary), the endpoint being the
    function's name. *)
Definition route (rule : string) (methods : list string)
    (name : string) (f : func) (a : Flask) : Flask :=
  {| import_name := import_name a;
     url_map := url_map a ++ [ {| rule := rule; methods := methods; endpoint := name |} ];
     view_functions := <[name := f]> (view_functions a);
     debug := debug a |}.

(** Modelled from the spec: the framework's [jsonify]; it serializes its
    argument and returns status 200 with a JSON content type (section
    4.1), or raises where the argument has no JSON form. *)
Definition jsonify (o : pyobj) : M Response :=
  match to_json o with
  | Ok j => mret {| status := 200; mimetype := "application/json"; body := JsonBody j |}
  | Raise e => raise e
  end.

Definition NotFound : exn := HTTPException 404 "Not Found".
Definition MethodNotAllowed : exn := HTTPException 405 "Method Not Allowed".

(** Modelled from the spec: the framework's URL matching; a path no rule
    has is "not found", a path some rule has but under other methods is
    "method not allowed" (sections 4.1, 7 and 8). *)
Definition match_request : M Rule :=
  req ← request;
  a ← current_app;
  match filter (fun r => rule r = path req) (url_map a) with
  | [] => raise NotFound
  | r0 :: rs =>
      match filter (fun r => method req ∈ methods r) (r0 :: rs) with
      | [] => raise MethodNotAllowed
      | r :: _ => mret r
      end
  end.

(** Modelled from the spec: the framework's default error responses; an
    HTTP error keeps its code, any other exception is a 500. *)
Definition handle_exception (e : exn) : Response :=
  match e with
  | HTTPException code name => {| status := code; mimetype := "text/html"; body := HtmlBody name |}
  | _ => {| status := 500; mimetype := "text/html"; body := HtmlBody "Internal Server Error" |}
  end.

Section dispatch.
(** The meaning of the function references held in [view_functions]. *)
Variable view : func -> M Response.

(** Modelled from the spec: the framework's dispatch of one request to
    the view function of the matched rule. *)
Definition dispatch_request : M Response :=
  r ← match_request;
  a ← current_app;
  match view_functions a !! endpoint r with
  | Some f => view f
  | None => raise (KeyError (endpoint r))
  end.

(** One request served: the response sent and the world left behind. *)
Definition wsgi_app (req : Request) (w : World) : Response * World :=
  match dispatch_request req w with
  | (Ok resp, w') => (resp, w')
  | (Raise e, w') => (handle_exception e, w')
  end.
End dispatch.

(** Modelled from the spec: the framework's [app.run(host, port, debug)];
    it records the debug flag, binds the socket and starts listening
    (section 4.1, "Startup" and "State machine"). *)
Definition run (host : string) (port : Z) (dbg : bool) (w : World) : World :=
  {| app := {| import_name := import_name (app w); url_map := url_map (app w);
               view_functions := view_functions (app w); debug := dbg |};
     server := listening;
     socket := Some (host, port);
     process := process w |}.

End flask.

(** ** backend/main.py *)

(** [def test(): return jsonify({'message': 'Python backend is working!'})] *)
Definition payload : pyobj :=
  PyDict {[ "message" := PyStr "Python backend is working!" ]}.

Definition test : M Response := flask.jsonify payload.

Definition call (f : func) : M Response :=
  match f with
  | F_test => test
  end.

(** The module's statements up to the [__main__] guard: create [app] and
    register [test] under [GET /api/test]. *)
Definition module_body (__name__ : string) (p : Process) : World :=
  let app := flask.Flask_init __name__ in
  let app := flask.route "/api/test" ["GET"] "test" F_test app in
  {| app := app; server := stopped; socket := None; process := p |}.

(** The whole module, run under the name [__name__] in the process [p]. *)
Definition main_py (__name__ : string) (p : Process) : World :=
  let w := module_body __name__ p in
  if decide (__name__ = "__main__")
  then flask.run "127.0.0.1" 5000 true w
  else w.

(** The server answering one request. *)
Definition serve (req : Request) (w : World) : Response * World :=
  flask.wsgi_app call req w.

(** ** Lifecycle *)

(** Modelled from the spec: the lifecycle state machine of section 4.1 and
    the framework's serving loop, which is not part of the repository.  The
    start transition is the program's own: run as the main program, the
    module goes from the world its statements above the guard leave
    ([module_body], lines 5-9) to the world its guard leaves ([main_py],
    lines 11-12).  Once listening, the server handles requests ([serve]). *)
Inductive step : World -> World -> Prop :=
| step_start (p : Process) :
    step (module_body "__main__" p) (main_py "__main__" p)
| step_request (w : World) (req : Request) :
    server w = listening ->
    step w (snd (serve req w)).

(** The worlds of a running server: started as the main program, then any
    number of requests. *)
Definition running (w : World) : Prop :=
  exists p, rtc step (main_py "__main__" p) w.

Definition GET (path : string) (query_string : string)
    (headers : list (string * string)) (data : string) : Request :=
  {| method := "GET"; path := path; query_string := query_string;
     headers := headers; data := data |}.

Definition expected_json : json :=
  JObj {[ "message" := JStr "Python backend is working!" ]}.

(** The requests served one after the other, oldest first: the responses
    sent and the world after the last one. *)
Fixpoint serve_all (reqs : list Request) (w : World) : list Response * World :=
  match reqs with
  | [] => ([], w)
  | req :: reqs' =>
      let '(resp, w') := serve req w in
      let '(resps, w'') := serve_all reqs' w' in
      (resp :: resps, w'')
  end.

(** ** Requests and processes used in the examples *)

Definition POST (path : string) (query_string : string)
    (headers : list (string * string)) (data : string) : Request :=
  {| method := "POST"; path := path; query_string := query_string;
     headers := headers; data := data |}.

Definition sample_process : Process :=
  {| environ := {[ "PATH" := "/usr/bin"; "FLASK_DEBUG" := "0" ]};
     argv := ["main.py"; "--port"; "8080"] |}.

Definition sample_get : Request :=
  GET "/api/test" "name=x&n=2" [("Accept", "text/html"); ("X-Token", "abc")] "ignored".

Definition other_process : Process :=
  {| environ := {[ "HOST" := "0.0.0.0"; "PORT" := "80" ]}; argv := ["main.py"] |}.

Definition ok_response : Response :=
  {| status := 200; mimetype := "application/json"; body := JsonBody expected_json |}.

(** * Properties *)

(** ** Examples *)

Example to_json_dict :
  to_json (PyDict {[ "a" := PyInt 1; "b" := PyList [PyStr "x"; PyNone] ]})
  = Ok (JObj {[ "b" := JArr [JStr "x"; JNull]; "a" := JNum 1 ]}).
Proof. vm_compute. reflexivity. Qed.

Example to_json_fails :
  to_json (PyDict {[ "a" := PyObject "set" ]})
  = Raise (TypeError "Object of type set is not JSON serializable").
Proof. vm_compute. reflexivity. Qed.

Example serve_test p :
  fst (serve (GET "/api/test" "" [] "") (main_py "__main__" p))
  = {| status := 200; mimetype := "application/json"; body := JsonBody expected_json |}.
Proof. vm_compute. reflexivity. Qed.

Example serve_unknown p :
  status (fst (serve (GET "/unknown" "" [] "") (main_py "__main__" p))) = 404.
Proof. vm_compute. reflexivity. Qed.

Example serve_post p :
  status (fst (serve {| method := "POST"; path := "/api/test"; query_string := "";
                        headers := []; data := "" |} (main_py "__main__" p))) = 405.
Proof. vm_compute. reflexivity. Qed.

(** ** The handler and the framework calls leave the world alone *)

Lemma jsonify_world (o : pyobj) (req : Request) (w : World) :
  snd (flask.jsonify o req w) = w.
Proof. unfold flask.jsonify. destruct (to_json o); reflexivity. Qed.

Lemma call_world (f : func) (req : Request) (w : World) :
  snd (call f req w) = w.
Proof. destruct f. apply jsonify_world. Qed.

Lemma match_request_world (req : Request) (w : World) :
  snd (flask.match_request req w) = w.
Proof.
  unfold flask.match_request, mbind, M_bind, request, current_app, raise, mret, M_ret.
  repeat case_match; reflexivity.
Qed.

Lemma dispatch_request_world (req : Request) (w : World) :
  snd (flask.dispatch_request call req w) = w.
Proof.
  unfold flask.dispatch_request, mbind, M_bind.
  pose proof (match_request_world req w) as Hm.
  destruct (flask.match_request req w) as [[r|e] w1]; simpl in Hm; subst w1;
    [ | reflexivity ].
  unfold current_app, raise.
  destruct (view_functions (app w) !! endpoint r); [ apply call_world | reflexivity ].
Qed.

Lemma serve_world (req : Request) (w : World) : snd (serve req w) = w.
Proof.
  unfold serve, flask.wsgi_app.
  pose proof (dispatch_request_world req w) as Hd.
  destruct (flask.dispatch_request call req w) as [[resp|e] w1]; exact Hd.
Qed.

(** ** Lifecycle lemmas *)

(** Running the module as the main program is the start transition. *)
Lemma main_py_starts p :
  step (module_body "__main__" p) (main_py "__main__" p).
Proof. apply step_start. Qed.

Lemma step_listening w w' : step w w' -> server w = listening -> w' = w.
Proof.
  intros Hstep Hl. inversion Hstep as [p | w0 req _]; subst.
  - discriminate Hl.
  - apply serve_world.
Qed.

Lemma rtc_step_listening w w' : rtc step w w' -> server w = listening -> w' = w.
Proof.
  induction 1 as [w | w w1 w2 Hstep _ IH]; intros Hl; [ reflexivity | ].
  pose proof (step_listening _ _ Hstep Hl) as ->. auto.
Qed.

(** A running server is in the world its start-up left. *)
Lemma running_inv w : running w <-> exists p, w = main_py "__main__" p.
Proof.
  split; intros [p H]; exists p.
  - apply (rtc_step_listening _ _ H). reflexivity.
  - subst w. apply rtc_refl.
Qed.

Lemma serve_all_world reqs w : snd (serve_all reqs w) = w.
Proof.
  revert w. induction reqs as [|req reqs IH]; intros w; simpl; [ reflexivity | ].
  pose proof (serve_world req w) as Hs.
  destruct (serve req w) as [resp w1]. simpl in Hs. subst w1.
  specialize (IH w). destruct (serve_all reqs w) as [resps w2]. exact IH.
Qed.

Lemma serve_all_length reqs w : length (fst (serve_all reqs w)) = length reqs.
Proof.
  revert w. induction reqs as [|req reqs IH]; intros w; simpl; [ reflexivity | ].
  destruct (serve req w) as [resp w1]. specialize (IH w1).
  destruct (serve_all reqs w1) as [resps w2]. simpl in *. congruence.
Qed.

(** ** What the server answers *)

Lemma test_returns req w : test req w = (Ok ok_response, w).
Proof. reflexivity. Qed.

Lemma serve_main_get_test p req :
  method req = "GET" -> path req = "/api/test" ->
  serve req (main_py "__main__" p) = (ok_response, main_py "__main__" p).
Proof.
  destruct req as [m pa q h d]. simpl. intros -> ->. reflexivity.
Qed.

Lemma serve_main_other_path p req :
  path req <> "/api/test" ->
  fst (serve req (main_py "__main__" p)) = flask.handle_exception flask.NotFound.
Proof.
  destruct req as [m pa q h d]. simpl. intros Hne.
  unfold serve, flask.wsgi_app, flask.dispatch_request, flask.match_request,
    mbind, M_bind, request, current_app. simpl.
  rewrite filter_cons_False by (simpl; congruence). reflexivity.
Qed.

Lemma serve_main_other_method p req :
  path req = "/api/test" -> method req <> "GET" ->
  fst (serve req (main_py "__main__" p)) = flask.handle_exception flask.MethodNotAllowed.
Proof.
  destruct req as [m pa q h d]. simpl. intros -> Hne.
  unfold serve, flask.wsgi_app, flask.dispatch_request, flask.match_request,
    mbind, M_bind, request, current_app. simpl.
  rewrite filter_cons_False; [ reflexivity | ].
  simpl. rewrite list_elem_of_singleton. exact Hne.
Qed.

Lemma serve_running_get_test w req :
  running w -> method req = "GET" -> path req = "/api/test" ->
  serve req w = (ok_response, w).
Proof.
  intros Hrun Hm Hp. apply running_inv in Hrun as [p ->].
  by apply serve_main_get_test.
Qed.

(** ** The claims *)

(** C1: every GET request to /api/test, whatever its query string, headers
    and body and whenever the running server receives it, is answered with
    status 200, a JSON content type and a body that is the JSON object with
    the single field "message" holding "Python backend is working!". *)
Theorem get_api_test_ok (w : World) (req : Request) :
  running w -> method req = "GET" -> path req = "/api/test" ->
  let resp := fst (serve req w) in
  status resp = 200 /\
  mimetype resp = "application/json" /\
  body resp = JsonBody (JObj {[ "message" := JStr "Python backend is working!" ]}).
Proof.
  intros Hrun Hm Hp. cbv zeta.
  rewrite (serve_running_get_test w req Hrun Hm Hp). auto.
Qed.

Lemma get_api_test_ok_witness :
  status (fst (serve sample_get (main_py "__main__" sample_process))) = 200 /\
  mimetype (fst (serve sample_get (main_py "__main__" sample_process))) = "application/json" /\
  body (fst (serve sample_get (main_py "__main__" sample_process)))
  = JsonBody (JObj {[ "message" := JStr "Python backend is working!" ]}).
Proof.
  apply (get_api_test_ok (main_py "__main__" sample_process) sample_get).
  - exists sample_process. apply rtc_refl.
  - reflexivity.
  - reflexivity.
Defined.

(** C2: every GET request whose path is not /api/test is answered with
    status 404, which is not 200. *)
Theorem get_other_path_not_found (w : World) (req : Request) :
  running w -> method req = "GET" -> path req <> "/api/test" ->
  status (fst (serve req w)) = 404 /\ status (fst (serve req w)) <> 200.
Proof.
  intros Hrun _ Hp. apply running_inv in Hrun as [p ->].
  rewrite (serve_main_other_path p req Hp). simpl. split; [ reflexivity | lia ].
Qed.

Lemma get_other_path_not_found_witness :
  status (fst (serve (GET "/unknown" "" [] "") (main_py "__main__" sample_process))) = 404 /\
  status (fst (serve (GET "/unknown" "" [] "") (main_py "__main__" sample_process))) <> 200.
Proof.
  apply (get_other_path_not_found (main_py "__main__" sample_process) (GET "/unknown" "" [] "")).
  - exists sample_process. apply rtc_refl.
  - reflexivity.
  - simpl. discriminate.
Defined.

(** C3: every POST request to /api/test is answered with status 405, which
    is not 200: the route is registered for GET only. *)
Theorem post_api_test_not_allowed (w : World) (req : Request) :
  running w -> method req = "POST" -> path req = "/api/test" ->
  status (fst (serve req w)) = 405 /\ status (fst (serve req w)) <> 200.
Proof.
  intros Hrun Hm Hp. apply running_inv in Hrun as [p ->].
  rewrite (serve_main_other_method p req Hp) by (rewrite Hm; discriminate).
  simpl. split; [ reflexivity | lia ].
Qed.

Lemma post_api_test_not_allowed_witness :
  status (fst (serve (POST "/api/test" "" [] "{}") (main_py "__main__" sample_process))) = 405 /\
  status (fst (serve (POST "/api/test" "" [] "{}") (main_py "__main__" sample_process))) <> 200.
Proof.
  apply (post_api_test_not_allowed (main_py "__main__" sample_process) (POST "/api/test" "" [] "{}")).
  - exists sample_process. apply rtc_refl.
  - reflexivity.
  - reflexivity.
Defined.

(** C4: the handler never reads the request: any two GET requests to
    /api/test, whatever their query strings, headers and bodies and whenever
    they arrive, get the same status and the same body. *)
Theorem get_api_test_ignores_request (w1 w2 : World) (r1 r2 : Request) :
  running w1 -> running w2 ->
  method r1 = "GET" -> path r1 = "/api/test" ->
  method r2 = "GET" -> path r2 = "/api/test" ->
  fst (test r1 w1) = fst (test r2 w2) /\
  status (fst (serve r1 w1)) = status (fst (serve r2 w2)) /\
  body (fst (serve r1 w1)) = body (fst (serve r2 w2)).
Proof.
  intros H1 H2 Hm1 Hp1 Hm2 Hp2.
  rewrite (serve_running_get_test w1 r1 H1 Hm1 Hp1).
  rewrite (serve_running_get_test w2 r2 H2 Hm2 Hp2).
  rewrite !test_returns. auto.
Qed.

Lemma get_api_test_ignores_request_witness :
  fst (test sample_get (main_py "__main__" sample_process))
  = fst (test (GET "/api/test" "" [] "") (main_py "__main__" other_process)) /\
  status (fst (serve sample_get (main_py "__main__" sample_process)))
  = status (fst (serve (GET "/api/test" "" [] "") (main_py "__main__" other_process))) /\
  body (fst (serve sample_get (main_py "__main__" sample_process)))
  = body (fst (serve (GET "/api/test" "" [] "") (main_py "__main__" other_process))).
Proof.
  apply (get_api_test_ignores_request
           (main_py "__main__" sample_process) (main_py "__main__" other_process)
           sample_get (GET "/api/test" "" [] "")).
  - exists sample_process. apply rtc_refl.
  - exists other_process. apply rtc_refl.
  - reflexivity.
  - reflexivity.
  - reflexivity.
  - reflexivity.
Defined.

(** C5: handling a GET request to /api/test changes nothing: the world (the
    application object, the lifecycle state, the socket and the process
    environment) after the handler, and after the whole dispatch, is the
    world before. *)
Theorem get_api_test_no_side_effect (w : World) (req : Request) :
  method req = "GET" -> path req = "/api/test" ->
  snd (test req w) = w /\ snd (serve req w) = w.
Proof.
  intros _ _. split; [ apply jsonify_world | apply serve_world ].
Qed.

Lemma get_api_test_no_side_effect_witness :
  snd (test sample_get (main_py "__main__" sample_process)) = main_py "__main__" sample_process /\
  snd (serve sample_get (main_py "__main__" sample_process)) = main_py "__main__" sample_process.
Proof.
  apply (get_api_test_no_side_effect (main_py "__main__" sample_process) sample_get);
    reflexivity.
Defined.

(** C6: run as the main program, the module binds 127.0.0.1:5000 and turns
    debug mode on, whatever the environment variables and the command line
    of the process are. *)
Theorem startup_fixed (p p' : Process) :
  server (main_py "__main__" p) = listening /\
  socket (main_py "__main__" p) = Some ("127.0.0.1", 5000) /\
  debug (app (main_py "__main__" p)) = true /\
  socket (main_py "__main__" p') = socket (main_py "__main__" p) /\
  app (main_py "__main__" p') = app (main_py "__main__" p).
Proof. repeat split. Qed.

(** C7: the lifecycle has the two states stopped and listening; run as the
    main program, the module is stopped before its guard and its start-up
    is a transition that ends in listening; every transition out of stopped
    ends in listening; and from the world the start-up leaves, and from any
    listening world, no sequence of transitions reaches stopped again. *)
Theorem lifecycle_two_states :
  (forall s : ServerState, s = stopped \/ s = listening) /\
  (forall p,
     server (module_body "__main__" p) = stopped /\
     step (module_body "__main__" p) (main_py "__main__" p) /\
     server (main_py "__main__" p) = listening) /\
  (forall w w', step w w' -> server w = stopped -> server w' = listening) /\
  (forall p w, rtc step (main_py "__main__" p) w ->
     server w = listening /\ server w <> stopped) /\
  (forall w w', rtc step w w' -> server w = listening -> server w' = listening).
Proof.
  split; [ | split; [ | split; [ | split ] ] ].
  - intros []; auto.
  - intros p. split; [ reflexivity | ]. split; [ apply step_start | reflexivity ].
  - intros w w' Hstep Hs. inversion Hstep; subst; [ reflexivity | congruence ].
  - intros p w Hrtc.
    rewrite (rtc_step_listening _ _ Hrtc) by reflexivity.
    split; [ reflexivity | discriminate ].
  - intros w w' Hrtc Hl. by rewrite (rtc_step_listening _ _ Hrtc Hl).
Qed.

(** C8: the payload is the literal {'message': 'Python backend is working!'}
    for the whole life of the process: whatever requests the server has been
    sent since it started, each GET /api/test among them was answered with
    that same document, and the next request is answered as it would have
    been answered first. *)
Theorem payload_never_changes (p : Process) (reqs : list Request) :
  payload = PyDict {[ "message" := PyStr "Python backend is working!" ]} /\
  Forall2 (fun req resp =>
             method req = "GET" -> path req = "/api/test" ->
             body resp = JsonBody (JObj {[ "message" := JStr "Python backend is working!" ]}))
          reqs (fst (serve_all reqs (main_py "__main__" p))) /\
  (forall req,
     fst (serve req (snd (serve_all reqs (main_py "__main__" p))))
     = fst (serve req (main_py "__main__" p))).
Proof.
  split; [ reflexivity | ].
  split; [ | intros req; by rewrite serve_all_world ].
  induction reqs as [|req reqs IH]; simpl; [ constructor | ].
  pose proof (serve_world req (main_py "__main__" p)) as Hw.
  destruct (serve req (main_py "__main__" p)) as [resp w1] eqn:Hs.
  simpl in Hw. subst w1.
  destruct (serve_all reqs (main_py "__main__" p)) as [resps w2]. simpl in *.
  constructor; [ | exact IH ].
  intros Hm Hp. rewrite (serve_main_get_test p req Hm Hp) in Hs.
  by injection Hs as <-.
Qed.

(** C9: the handler is total: called under any request in any world it
    returns a response, the one with status 200, and raises no exception. *)
Theorem test_total (req : Request) (w : World) :
  (exists resp, fst (test req w) = Ok resp /\ status resp = 200) /\
  (forall e, fst (test req w) <> Raise e).
Proof.
  rewrite test_returns. simpl. split; [ by eexists | discriminate ].
Qed.

(** C10: the module starts the server exactly when it runs under the name
    __main__; under any other name (an import) it still registers test
    under GET /api/test on app, but binds no socket and stays stopped. *)
Theorem main_guard (name : string) (p : Process) :
  (server (main_py name p) = listening <-> name = "__main__") /\
  (server (main_py name p) = stopped <-> name <> "__main__") /\
  (socket (main_py name p) = None <-> name <> "__main__") /\
  url_map (app (main_py name p))
  = [ {| rule := "/api/test"; methods := ["GET"]; endpoint := "test" |} ] /\
  view_functions (app (main_py name p)) !! "test" = Some F_test.
Proof.
  unfold main_py. destruct (decide (name = "__main__")) as [->|Hne]; simpl.
  - repeat split; try congruence; try discriminate.
  - repeat split; try congruence; try discriminate.
Qed.

(** ** Beyond the claims: the application object under any module name *)

Lemma main_py_routes (name : string) (p : Process) :
  url_map (app (main_py name p))
  = [ {| rule := "/api/test"; methods := ["GET"]; endpoint := "test" |} ] /\
  view_functions (app (main_py name p)) !! "test" = Some F_test.
Proof.
  unfold main_py. destruct (decide (name = "__main__")); split; reflexivity.
Qed.

(** What a world with the program's route table answers: the handler's
    response, or one of the two routing errors. *)
Lemma serve_routes (w : World) (req : Request) :
  url_map (app w)
  = [ {| rule := "/api/test"; methods := ["GET"]; endpoint := "test" |} ] ->
  view_functions (app w) !! "test" = Some F_test ->
  fst (serve req w) =
    if decide (path req = "/api/test")
    then if decide (method req = "GET")
         then ok_response
         else flask.handle_exception flask.MethodNotAllowed
    else flask.handle_exception flask.NotFound.
Proof.
  intros Hmap Hview.
  unfold serve, flask.wsgi_app, flask.dispatch_request, flask.match_request,
    mbind, M_bind, request, current_app.
  rewrite Hmap.
  destruct (decide (path req = "/api/test")) as [Hp|Hp].
  - rewrite filter_cons_True by (simpl; congruence). rewrite filter_nil.
    destruct (decide (method req = "GET")) as [Hm|Hm].
    + rewrite filter_cons_True by (simpl; rewrite Hm; apply list_elem_of_here).
      simpl. rewrite Hview. reflexivity.
    + rewrite filter_cons_False; [ reflexivity | ].
      simpl. rewrite list_elem_of_singleton. exact Hm.
  - rewrite filter_cons_False by (simpl; congruence). reflexivity.
Qed.

(** X1: no request makes the server fail: whatever the method, path, query
    string, headers and body, and whether the module was run as the main
    program or imported, the response is not a 500: the endpoint of the
    registered rule is in the table of view functions and its handler does
    not raise. *)
Theorem no_internal_server_error (name : string) (p : Process) (req : Request) :
  status (fst (serve req (main_py name p))) <> 500.
Proof.
  destruct (main_py_routes name p) as [Hmap Hview].
  rewrite (serve_routes _ req Hmap Hview).
  repeat case_decide; simpl; lia.
Qed.

(** X2: the route is registered before the __main__ guard, so the
    application object answers GET /api/test under every module name, also
    when the module is imported and the server is never started by it: the
    response is the 200 JSON document and the world is left as it was. *)
Theorem imported_app_serves_test (name : string) (p : Process) (req : Request) :
  method req = "GET" -> path req = "/api/test" ->
  serve req (main_py name p) = (ok_response, main_py name p).
Proof.
  intros Hm Hp.
  destruct (main_py_routes name p) as [Hmap Hview].
  pose proof (serve_routes _ req Hmap Hview) as Hf.
  pose proof (serve_world req (main_py name p)) as Hs.
  rewrite !decide_True in Hf by assumption.
  destruct (serve req (main_py name p)) as [resp w1]. simpl in *. congruence.
Qed.

Lemma imported_app_serves_test_witness :
  serve sample_get (main_py "backend.main" other_process)
  = (ok_response, main_py "backend.main" other_process).
Proof.
  apply (imported_app_serves_test "backend.main" other_process sample_get);
    reflexivity.
Defined.
